(** * static/scripts/S3/s3.inv_recv_multisite.js

    The script keeps the two site selectors of the inv/recv form in step
    with the selected Request: a change of [#link_defaultreq] issues one
    GET for the candidate sites, and the success callback rebuilds the
    options of [#inv_recv_from_site_id] and [#inv_recv_site_id] and sets
    [#inv_recv_type].

    The embedding is a state-and-exception monad over the part of the page
    the script can see.  jQuery, the browser and [$.getJSONS3] are the
    environment; what is assumed of them is written at each primitive. *)

From Stdlib Require Import ZArith List String Bool Arith Lia DecimalString.
Import ListNotations.
Local Open Scope string_scope.

(* ================================================================== *)
(** ** JSON values and the response *)

(** The scalars a site entry is made of: a record id (a number, or the
    same id as text) and a label. *)
Inductive jsval : Type :=
| JNum (n : Z)
| JStr (s : string).

(** JavaScript's ToString on these scalars; the DOM stores text only, so
    [new Option(text, value)] and jQuery's [.val(v)] both go through it. *)
Definition ToString (v : jsval) : string :=
  match v with
  | JNum n => NilZero.string_of_int (Z.to_int n)
  | JStr s => s
  end.

(** One entry [[id, label]] of a site list: [site[0]] is [fst],
    [site[1]] is [snd]. *)
Definition site_t : Type := (jsval * jsval)%type.

(** The response body [data]: [data[0]] are the from-sites, [data[1]] the
    to-sites. *)
Record response : Type := mk_response {
  data_0 : list site_t;
  data_1 : list site_t
}.

(* ================================================================== *)
(** ** The page *)

(** The four form fields the script names, by element id. *)
Inductive field_id : Type :=
| link_defaultreq
| inv_recv_from_site_id
| inv_recv_site_id
| inv_recv_type.

Definition field_id_eqb (a b : field_id) : bool :=
  match a, b with
  | link_defaultreq, link_defaultreq => true
  | inv_recv_from_site_id, inv_recv_from_site_id => true
  | inv_recv_site_id, inv_recv_site_id => true
  | inv_recv_type, inv_recv_type => true
  | _, _ => false
  end.

(** An [<option>] element as [new Option(text, value)] builds it. *)
Record option_elt : Type := mk_option {
  opt_text : string;
  opt_value : string
}.

Definition new_Option (text value : jsval) : option_elt :=
  {| opt_text := ToString text; opt_value := ToString value |}.

(** A field is a drop-down: its options in document order, and [value],
    what jQuery's [.val()] reads, that is the value of the selected option,
    or [None] ([null]) while no option is selected. *)
Record field : Type := mk_field {
  value : option string;
  options : list option_elt
}.

(** The field has an option whose value is [v]. *)
Definition offers (x : field) (v : string) : bool :=
  existsb (fun o => String.eqb (opt_value o) v) (options x).

Definition first_value (os : list option_elt) : option string :=
  match os with
  | [] => None
  | o :: _ => Some (opt_value o)
  end.

(** What a drop-down shows once its options have changed to [os]: the
    selection it had, or, when it had none, the first option. *)
Definition reselected (v : option string) (os : list option_elt) : option string :=
  match v with
  | Some _ => v
  | None => first_value os
  end.

Record dom : Type := mk_dom {
  f_link_defaultreq : field;
  f_inv_recv_from_site_id : field;
  f_inv_recv_site_id : field;
  f_inv_recv_type : field
}.

Definition get_field (d : dom) (f : field_id) : field :=
  match f with
  | link_defaultreq => f_link_defaultreq d
  | inv_recv_from_site_id => f_inv_recv_from_site_id d
  | inv_recv_site_id => f_inv_recv_site_id d
  | inv_recv_type => f_inv_recv_type d
  end.

Definition set_field (d : dom) (f : field_id) (x : field) : dom :=
  match f with
  | link_defaultreq =>
      mk_dom x (f_inv_recv_from_site_id d) (f_inv_recv_site_id d) (f_inv_recv_type d)
  | inv_recv_from_site_id =>
      mk_dom (f_link_defaultreq d) x (f_inv_recv_site_id d) (f_inv_recv_type d)
  | inv_recv_site_id =>
      mk_dom (f_link_defaultreq d) (f_inv_recv_from_site_id d) x (f_inv_recv_type d)
  | inv_recv_type =>
      mk_dom (f_link_defaultreq d) (f_inv_recv_from_site_id d) (f_inv_recv_site_id d) x
  end.

(** The jQuery calls that write to the page or trigger an event, as the
    script issues them. *)
Inductive jqcall : Type :=
| CallHtml (f : field_id) (markup : string)
| CallAppend (f : field_id) (o : option_elt)
| CallVal (f : field_id) (v : jsval)
| CallChange (f : field_id).

(** The two function values of the script, by name: the success callback
    of lines 21-56 and the change handler of lines 59-62. *)
Inductive callback : Type := sites_loaded.
Inductive handler : Type := req_changed.

Inductive http_method : Type := GET | POST.

(** An outstanding request: what was handed to the HTTP helper.  A
    function to call on failure takes no response body, so it is one of
    the script's parameterless functions, if any is given. *)
Record ajax : Type := mk_ajax {
  ajax_type : http_method;
  ajax_url : string;
  ajax_success : callback;
  ajax_error : option handler
}.

(** Everything the script reads or writes.  [var_site] is the closure
    variable [site], which both loops assign and the code after each loop
    reads; [None] is [undefined].  The other closure variables ([ajaxURL],
    [fromSites], [toSites], [req_id]) and the two undeclared lengths are
    assigned once and read straight after in the same run, so they appear
    as [let]s. *)
Record page : Type := mk_page {
  S3_Ap : string;
  fields : dom;
  var_site : option site_t;
  handlers : list (field_id * handler);
  pending : list ajax;
  trace : list jqcall
}.

Definition with_fields (d : dom) (st : page) : page :=
  mk_page (S3_Ap st) d (var_site st) (handlers st) (pending st) (trace st).
Definition with_site (s : option site_t) (st : page) : page :=
  mk_page (S3_Ap st) (fields st) s (handlers st) (pending st) (trace st).
Definition with_handlers (h : list (field_id * handler)) (st : page) : page :=
  mk_page (S3_Ap st) (fields st) (var_site st) h (pending st) (trace st).
Definition with_pending (p : list ajax) (st : page) : page :=
  mk_page (S3_Ap st) (fields st) (var_site st) (handlers st) p (trace st).
Definition with_trace (t : list jqcall) (st : page) : page :=
  mk_page (S3_Ap st) (fields st) (var_site st) (handlers st) (pending st) t.

Definition field_of (st : page) (f : field_id) : field := get_field (fields st) f.
Definition log (c : jqcall) (st : page) : page := with_trace (trace st ++ [c]) st.
Definition update_field (f : field_id) (g : field -> field) (st : page) : page :=
  with_fields (set_field (fields st) f (g (field_of st f))) st.

(* ================================================================== *)
(** ** The monad: state that survives an exception *)

Inductive outcome (A : Type) : Type :=
| Normal (a : A)
| Thrown (msg : string).
Arguments Normal {A} a.
Arguments Thrown {A} msg.

Definition M (A : Type) : Type := page -> outcome A * page.

Definition ret {A} (a : A) : M A := fun st => (Normal a, st).
Definition throw {A} (msg : string) : M A := fun st => (Thrown msg, st).
Definition bind {A B} (m : M A) (k : A -> M B) : M B :=
  fun st =>
    match m st with
    | (Normal a, st') => k a st'
    | (Thrown msg, st') => (Thrown msg, st')
    end.
Definition modify (g : page -> page) : M unit := fun st => (Normal tt, g st).
Definition reads {A} (g : page -> A) : M A := fun st => (Normal (g st), st).

Declare Scope js_scope.
Delimit Scope js_scope with js.
Notation "x <- m ;; k" := (bind m (fun x => k))
  (at level 61, m at next level, right associativity) : js_scope.
Notation "m ;; k" := (bind m (fun _ => k))
  (at level 61, right associativity) : js_scope.
Local Open Scope js_scope.

(** [if (c) { body }] *)
Definition when (c : bool) (body : M unit) : M unit :=
  if c then body else ret tt.

(** [for (var i = start; i < start + count; i++) { body i }] *)
Fixpoint for_range (start count : nat) (body : nat -> M unit) : M unit :=
  match count with
  | O => ret tt
  | S c => body start ;; for_range (S start) c body
  end.

(** The state a computation leaves, whatever its outcome. *)
Definition exec {A} (m : M A) (st : page) : page := snd (m st).

(* ================================================================== *)
(** ** jQuery and the HTTP helper, as the script uses them *)

(** [$(f).html(markup)].  The script only ever passes the empty markup,
    which removes every child of the element: no option is left, and with
    none left none is selected.  Parsing other markup is not modelled. *)
Definition emptied (f : field_id) (st : page) : page :=
  log (CallHtml f EmptyString) (update_field f (fun _ => mk_field None []) st).

Definition jq_html (f : field_id) (markup : string) : M unit :=
  match markup with
  | EmptyString => modify (emptied f)
  | String _ _ => throw "html: markup outside the model"
  end.

(** [$(f).append(o)] adds [o] after the options already there.  A fresh
    [Option] is not marked selected; a drop-down with no option selected
    selects its first one when an option is inserted, so after the first
    append to an emptied field [.val()] reads that option's value. *)
Definition appended (f : field_id) (o : option_elt) (st : page) : page :=
  log (CallAppend f o)
      (update_field f
         (fun x => mk_field (reselected (value x) (options x ++ [o])) (options x ++ [o]))
         st).

Definition jq_append (f : field_id) (o : option_elt) : M unit :=
  modify (appended f o).

(** [$(f).val(v)] with an argument selects the option whose value is [v]
    as text; when the field offers no such option, none is left selected
    and [.val()] reads [null]. *)
Definition assigned (f : field_id) (v : jsval) (st : page) : page :=
  log (CallVal f v)
      (update_field f
         (fun x => mk_field (if offers x (ToString v) then Some (ToString v) else None)
                            (options x))
         st).

Definition jq_val (f : field_id) (v : jsval) : M unit :=
  modify (assigned f v).

(** [$(f).val()] without argument reads the value; [None] is [null]. *)
Definition jq_val_get (f : field_id) : M (option string) :=
  reads (fun st => value (field_of st f)).

(** ['text' + v] for a value read from a field: [null] prints as "null". *)
Definition concat_val (s : string) (v : option string) : string :=
  s ++ match v with Some x => x | None => "null" end.

(** Modelled from the spec: [$.getJSONS3] is defined in S3.js, which is not
    part of this file.  The script hands it a URL and a success callback
    and nothing else; one call issues one asynchronous GET, recorded here
    as one outstanding request with no function to call on failure. *)
Definition queued (url : string) (success : callback) (st : page) : page :=
  with_pending (pending st ++ [mk_ajax GET url success None]) st.

Definition getJSONS3 (url : string) (success : callback) : M unit :=
  modify (queued url success).

(** Lines 19-21: [lookupSites], up to the point where the helper takes
    over.  [S3.Ap] is the application's base path, read when called. *)
Definition lookupSites (req_id : option string) : M unit :=
  Ap <- reads S3_Ap ;;
  let ajaxURL := Ap ++ concat_val "/inv/req/recv_sites.json?req_id=" req_id in
  getJSONS3 ajaxURL sites_loaded.

Definition reqField : field_id := link_defaultreq.
Definition fromField : field_id := inv_recv_from_site_id.
Definition toField : field_id := inv_recv_site_id.

(** Lines 59-62: the body of the change handler. *)
Definition on_req_changed : M unit :=
  req_id <- jq_val_get reqField ;;
  lookupSites req_id.

Definition run_handler (h : handler) : M unit :=
  match h with
  | req_changed => on_req_changed
  end.

(** The handlers bound to [f], in the order they were bound. *)
Definition bound_to (f : field_id) (hs : list (field_id * handler)) : list handler :=
  map snd (filter (fun fh => field_id_eqb (fst fh) f) hs).

Fixpoint run_handlers (hs : list handler) : M unit :=
  match hs with
  | [] => ret tt
  | h :: hs' => run_handler h ;; run_handlers hs'
  end.

(** A change event on [f] runs the handlers this script bound to it.
    Listeners of other scripts are not part of the page record. *)
Definition fire_change (f : field_id) : M unit :=
  hs <- reads handlers ;;
  run_handlers (bound_to f hs).

(** [$(f).change(fn)]: bind a handler. *)
Definition jq_on_change (f : field_id) (h : handler) : M unit :=
  modify (fun st => with_handlers (handlers st ++ [(f, h)]) st).

(** [$(f).change()]: trigger the event. *)
Definition jq_change (f : field_id) : M unit :=
  modify (log (CallChange f)) ;;
  fire_change f.

(** [site[0]] and [site[1]] on the closure variable: a TypeError while
    [site] is undefined. *)
Definition read_site : M site_t :=
  s <- reads var_site ;;
  match s with
  | Some p => ret p
  | None => throw "TypeError: site is undefined"
  end.

(** The two loops (lines 29-32 and 48-51) share their body:
    [site = sites[i]; field.append(new Option(site[1], site[0]))]. *)
Definition add_option (f : field_id) (sites : list site_t) (i : nat) : M unit :=
  modify (with_site (nth_error sites i)) ;;
  site <- read_site ;;
  jq_append f (new_Option (snd site) (fst site)).

(** [if (n)] on a length: zero is false, anything else true. *)
Definition truthy (n : nat) : bool := negb (n =? 0)%nat.

(** Lines 21-56: the success callback. *)
Definition sites_callback (data : response) : M unit :=
  (* Clear all options *)
  jq_html fromField EmptyString ;;
  jq_html toField EmptyString ;;
  let fromSites := data_0 data in
  let fromSitesLength := List.length fromSites in
  when (truthy fromSitesLength)
    ( (* Add options *)
      for_range 0 fromSitesLength (add_option fromField fromSites) ;;
      when (fromSitesLength =? 1)%nat
        ( (* Only a single Site matches, so set to this Site *)
          site <- read_site ;;
          jq_val fromField (fst site) ) ;;
      (* Set to 'Internal Shipment' *)
      jq_val inv_recv_type (JNum 11) ;;
      jq_change inv_recv_type ) ;;
  let toSites := data_1 data in
  let toSitesLength := List.length toSites in
  if (toSitesLength =? 0)%nat then
    (* No Options => No Shipment can be received (e.g. Permissions) *)
    ret tt
  else
    (* Add options *)
    for_range 0 toSitesLength (add_option toField toSites) ;;
    when (toSitesLength =? 1)%nat
      ( (* Only a single Site matches, so set to this Site *)
        site <- read_site ;;
        jq_val toField (fst site) ).

Definition run_callback (c : callback) (data : response) : M unit :=
  match c with
  | sites_loaded => sites_callback data
  end.

(** Lines 6-64: what runs when the document is ready.  The declarations
    bind names; the one effect is the handler on the request selector. *)
Definition ready : M unit :=
  jq_on_change reqField req_changed.

(* ================================================================== *)
(** ** The page over time *)

(** What can happen once the script is loaded: the user picks a request
    (the browser stores the value and raises the change event), or the
    [k]-th outstanding request comes back, with a body or with a failure.
    An exception in a handler ends that handler; the page keeps what was
    written up to then. *)
Inductive event : Type :=
| UserSelects (v : option string)
| Succeeds (k : nat) (data : response)
| Fails (k : nat).

Definition take_out {A} (k : nat) (l : list A) : list A := firstn k l ++ skipn (S k) l.

Definition deliver (e : event) (st : page) : page :=
  match e with
  | UserSelects v =>
      exec (fire_change reqField)
           (update_field reqField (fun x => mk_field v (options x)) st)
  | Succeeds k data =>
      match nth_error (pending st) k with
      | Some r => exec (run_callback (ajax_success r) data)
                       (with_pending (take_out k (pending st)) st)
      | None => st
      end
  | Fails k =>
      match nth_error (pending st) k with
      | Some r =>
          let st' := with_pending (take_out k (pending st)) st in
          match ajax_error r with
          | Some h => exec (run_handler h) st'
          | None => st'
          end
      | None => st
      end
  end.

Definition run_events (es : list event) (st : page) : page :=
  fold_left (fun s e => deliver e s) es st.

Definition is_success (e : event) : bool :=
  match e with Succeeds _ _ => true | _ => false end.

(** The jQuery calls made while [m] ran from [st]. *)
Definition calls_during {A} (m : M A) (st : page) : list jqcall :=
  skipn (List.length (trace st)) (trace (exec m st)).

(** The field a call is made on. *)
Definition target (c : jqcall) : field_id :=
  match c with
  | CallHtml f _ | CallAppend f _ | CallVal f _ | CallChange f => f
  end.

Definition is_html (c : jqcall) : bool :=
  match c with CallHtml _ _ => true | _ => false end.

Definition is_val_on (f : field_id) (c : jqcall) : bool :=
  match c with CallVal g _ => field_id_eqb g f | _ => false end.

(* ================================================================== *)
(** ** What a run amounts to *)

(** The option a site entry becomes: label as text, id as value. *)
Definition option_of (s : site_t) : option_elt := new_Option (snd s) (fst s).

(** One turn of either loop, and the whole loop. *)
Definition listed (f : field_id) (st : page) (s : site_t) : page :=
  appended f (option_of s) (with_site (Some s) st).

Definition all_listed (f : field_id) (sites : list site_t) (st : page) : page :=
  fold_left (listed f) sites st.

(** A loop followed by its [if (length == 1)]. *)
Definition populated (f : field_id) (sites : list site_t) (st : page) : page :=
  match sites with
  | [s] => assigned f (fst s) (all_listed f sites st)
  | _ => all_listed f sites st
  end.

(** The request one run of the change handler queues. *)
Definition request_for (st : page) : ajax :=
  mk_ajax GET
    (S3_Ap st ++ concat_val "/inv/req/recv_sites.json?req_id=" (value (field_of st reqField)))
    sites_loaded None.

Definition fired (f : field_id) (st : page) : page :=
  with_pending
    (pending st ++ map (fun _ => request_for st) (bound_to f (handlers st))) st.

(** The page the success callback leaves. *)
Definition loaded (data : response) (st : page) : page :=
  let s1 := emptied toField (emptied fromField st) in
  let s2 :=
    match data_0 data with
    | [] => s1
    | _ :: _ =>
        fired inv_recv_type
          (log (CallChange inv_recv_type)
             (assigned inv_recv_type (JNum 11) (populated fromField (data_0 data) s1)))
    end in
  match data_1 data with
  | [] => s2
  | _ :: _ => populated toField (data_1 data) s2
  end.

(** What a site selector reads once it lists [sites]: the id of the first
    entry, the only one when there is one; nothing when there is none. *)
Definition shown (sites : list site_t) : option string :=
  match sites with
  | [] => None
  | s :: _ => Some (ToString (fst s))
  end.

(** A field after a loop has appended [sites] to it, and after the loop
    and its [if (length == 1)]. *)
Definition listing (x : field) (sites : list site_t) : field :=
  let os := (options x ++ map option_of sites)%list in
  mk_field (match sites with
            | [] => value x
            | _ :: _ => reselected (value x) os
            end) os.

Definition populating (x : field) (sites : list site_t) : field :=
  match sites with
  | [s] =>
      let y := listing x sites in
      mk_field (if offers y (ToString (fst s)) then Some (ToString (fst s)) else None)
               (options y)
  | _ => listing x sites
  end.

(** The page offers "Internal Shipment" as a shipment type. *)
Definition offers_internal_shipment (st : page) : bool :=
  offers (field_of st inv_recv_type) "11".

Definition calls_for (f : field_id) (sites : list site_t) : list jqcall :=
  map (fun s => CallAppend f (option_of s)) sites ++
  match sites with
  | [s] => [CallVal f (fst s)]
  | _ => []
  end.

Definition emitted (data : response) : list jqcall :=
  [CallHtml fromField EmptyString; CallHtml toField EmptyString] ++
  match data_0 data with
  | [] => []
  | _ :: _ =>
      calls_for fromField (data_0 data) ++
      [CallVal inv_recv_type (JNum 11); CallChange inv_recv_type]
  end ++
  calls_for toField (data_1 data).

(** The three fields the callback writes to. *)
Definition dependent (f : field_id) : bool :=
  match f with
  | link_defaultreq => false
  | _ => true
  end.

(** The request [lookupSites] builds for a value of the request selector
    on a page whose base path is [Ap]. *)
Definition request_of (Ap : string) (v : option string) : ajax :=
  mk_ajax GET (Ap ++ concat_val "/inv/req/recv_sites.json?req_id=" v) sites_loaded None.

(** Every handler in [hs] is bound to [f]. *)
Definition bound_only_to (f : field_id) (hs : list (field_id * handler)) : bool :=
  forallb (fun fh => field_id_eqb (fst fh) f) hs.

(* ================================================================== *)
(** ** Sample pages and responses *)

(** A form as a user may have left it: a request chosen, both site
    selectors still showing the sites of an earlier request. *)
Definition sample_page : page :=
  let stale := mk_field (Some "9") [mk_option "Depot Nine" "9"; mk_option "Depot Ten" "10"] in
  mk_page "/eden"
    (mk_dom (mk_field (Some "4") [mk_option "REQ-4" "4"; mk_option "REQ-5" "5"])
            stale stale
            (mk_field (Some "32") [mk_option "Internal Shipment" "11"; mk_option "Donation" "32"]))
    None [] [] [].

Definition one_to_one : response :=
  mk_response [(JNum 7, JStr "Warehouse A")] [(JStr "2", JStr "Warehouse B")].

Definition two_to_none : response :=
  mk_response [(JNum 7, JStr "Warehouse A"); (JNum 8, JStr "Warehouse B")] [].

Definition none_to_two : response :=
  mk_response [] [(JNum 2, JStr "Warehouse B"); (JNum 3, JStr "Warehouse C")].

(** The sample page once the script has run its ready function. *)
Definition ready_page : page := exec ready sample_page.

Definition none_to_none : response := mk_response [] [].

Definition one_to_two : response :=
  mk_response [(JNum 7, JStr "Warehouse A")]
              [(JNum 2, JStr "Warehouse B"); (JNum 3, JStr "Warehouse C")].

(* ================================================================== *)
(** ** Running the monad *)

Local Open Scope list_scope.

Lemma bind_run {A B} (m : M A) (k : A -> M B) st a st' :
  m st = (Normal a, st') -> bind m k st = k a st'.
Proof. intros H. unfold bind. rewrite H. reflexivity. Qed.

Lemma field_id_eqb_eq a b : field_id_eqb a b = true <-> a = b.
Proof. destruct a, b; simpl; split; congruence. Qed.

Lemma field_id_eqb_refl a : field_id_eqb a a = true.
Proof. destruct a; reflexivity. Qed.

Lemma nth_error_middle {A} (pre : list A) x suf :
  nth_error (pre ++ x :: suf) (List.length pre) = Some x.
Proof. induction pre as [|p pre IH]; simpl; auto. Qed.

Lemma add_option_run f pre s suf st :
  add_option f (pre ++ s :: suf) (List.length pre) st = (Normal tt, listed f st s).
Proof.
  unfold add_option, bind, modify, read_site, reads, ret, jq_append. simpl.
  rewrite nth_error_middle. reflexivity.
Qed.

(** The loop from index [length pre] over the rest of the list. *)
Lemma for_range_run f suf : forall pre st,
  for_range (List.length pre) (List.length suf) (add_option f (pre ++ suf)) st
  = (Normal tt, all_listed f suf st).
Proof.
  induction suf as [|s suf IH]; intros pre st.
  - reflexivity.
  - simpl for_range.
    rewrite (bind_run _ _ _ _ _ (add_option_run f pre s suf st)).
    specialize (IH (pre ++ [s]) (listed f st s)).
    rewrite <- app_assoc, length_app in IH. simpl in IH.
    rewrite Nat.add_1_r in IH. exact IH.
Qed.

Lemma loop_run f sites st :
  for_range 0 (List.length sites) (add_option f sites) st
  = (Normal tt, all_listed f sites st).
Proof. exact (for_range_run f sites [] st). Qed.

Lemma set_get_field d f x g :
  get_field (set_field d f x) g = if field_id_eqb g f then x else get_field d g.
Proof. destruct f, g; reflexivity. Qed.

Lemma listed_field f s st g :
  field_of (listed f st s) g =
  if field_id_eqb g f then listing (field_of st f) [s] else field_of st g.
Proof. apply set_get_field. Qed.

Lemma listing_cons x s sites : listing (listing x [s]) sites = listing x (s :: sites).
Proof.
  destruct x as [v os]. unfold listing. cbn [value options map].
  rewrite <- app_assoc. cbn [app]. f_equal.
  destruct sites as [|s' sites]; [reflexivity|].
  destruct v as [v|]; [reflexivity|]. cbn [reselected].
  destruct os; reflexivity.
Qed.

(** What the loop leaves of each part of the page. *)
Lemma all_listed_field f sites : forall st g,
  field_of (all_listed f sites st) g =
  if field_id_eqb g f then listing (field_of st f) sites else field_of st g.
Proof.
  unfold all_listed.
  induction sites as [|s sites IH]; intros st g; simpl fold_left.
  - destruct (field_id_eqb g f) eqn:E; [|reflexivity].
    apply field_id_eqb_eq in E. subst g. unfold listing. simpl. rewrite app_nil_r.
    destruct (field_of st f); reflexivity.
  - rewrite IH, !listed_field, field_id_eqb_refl.
    destruct (field_id_eqb g f); [apply listing_cons|reflexivity].
Qed.

Lemma all_listed_trace f sites : forall st,
  trace (all_listed f sites st) =
  (trace st ++ map (fun s => CallAppend f (option_of s)) sites)%list.
Proof.
  unfold all_listed.
  induction sites as [|s sites IH]; intros st; simpl fold_left.
  - simpl. now rewrite app_nil_r.
  - rewrite IH. simpl. now rewrite <- app_assoc.
Qed.

Lemma all_listed_rest f sites : forall st,
  S3_Ap (all_listed f sites st) = S3_Ap st /\
  handlers (all_listed f sites st) = handlers st /\
  pending (all_listed f sites st) = pending st.
Proof.
  unfold all_listed.
  induction sites as [|s sites IH]; intros st; simpl fold_left.
  - auto.
  - destruct (IH (listed f st s)) as (H1 & H2 & H3).
    rewrite H1, H2, H3. auto.
Qed.

(** Loop and single-site choice together. *)
Lemma populate_run f sites st :
  (for_range 0 (List.length sites) (add_option f sites) ;;
   when (List.length sites =? 1)%nat (site <- read_site ;; jq_val f (fst site))) st
  = (Normal tt, populated f sites st).
Proof.
  rewrite (bind_run _ _ _ _ _ (loop_run f sites st)).
  destruct sites as [|s [|s' sites]]; reflexivity.
Qed.

Lemma assigned_field f v st g :
  field_of (assigned f v st) g =
  if field_id_eqb g f
  then mk_field (if offers (field_of st f) (ToString v) then Some (ToString v) else None)
                (options (field_of st f))
  else field_of st g.
Proof. apply set_get_field. Qed.

Lemma populated_field f sites st g :
  field_of (populated f sites st) g =
  if field_id_eqb g f then populating (field_of st f) sites else field_of st g.
Proof.
  destruct sites as [|s [|s' sites]]; unfold populated, populating;
    try apply all_listed_field.
  rewrite assigned_field, !all_listed_field, field_id_eqb_refl.
  destruct (field_id_eqb g f); reflexivity.
Qed.

(** On a field that was just emptied. *)
Lemma populating_emptied sites :
  populating (mk_field None []) sites = mk_field (shown sites) (map option_of sites).
Proof.
  destruct sites as [|s [|s' sites]]; try reflexivity.
  unfold populating, listing, offers. cbn [options value app map existsb option_of
    new_Option opt_value]. now rewrite String.eqb_refl.
Qed.

Lemma populated_trace f sites st :
  trace (populated f sites st) = (trace st ++ calls_for f sites)%list.
Proof.
  unfold calls_for.
  destruct sites as [|s [|s' sites]]; unfold populated.
  - simpl. now rewrite app_nil_r.
  - simpl. now rewrite <- app_assoc.
  - now rewrite all_listed_trace, app_nil_r.
Qed.

Lemma populated_rest f sites st :
  S3_Ap (populated f sites st) = S3_Ap st /\
  handlers (populated f sites st) = handlers st /\
  pending (populated f sites st) = pending st.
Proof.
  destruct sites as [|s [|s' sites]]; unfold populated;
    apply all_listed_rest.
Qed.

Lemma populate_then {B} f sites (k : M B) st :
  (for_range 0 (List.length sites) (add_option f sites) ;;
   when (List.length sites =? 1)%nat (site <- read_site ;; jq_val f (fst site)) ;;
   k) st
  = k (populated f sites st).
Proof.
  rewrite (bind_run _ _ _ _ _ (loop_run f sites st)).
  destruct sites as [|s [|s' sites]]; reflexivity.
Qed.

(** The handlers bound to a field each queue one request and touch
    nothing else. *)
Lemma run_handlers_run hs : forall st,
  run_handlers hs st =
  (Normal tt, with_pending (pending st ++ map (fun _ => request_for st) hs) st).
Proof.
  induction hs as [|h hs IH]; intros st.
  - simpl. rewrite app_nil_r. destruct st; reflexivity.
  - destruct h. simpl run_handlers.
    assert (H : run_handler req_changed st
                = (Normal tt, queued (ajax_url (request_for st)) sites_loaded st))
      by reflexivity.
    rewrite (bind_run _ _ _ _ _ H), IH.
    unfold queued, with_pending. simpl. rewrite <- app_assoc. reflexivity.
Qed.

Lemma fire_change_run f st : fire_change f st = (Normal tt, fired f st).
Proof.
  unfold fire_change, bind, reads. now rewrite run_handlers_run.
Qed.

(** The success callback always returns, and leaves [loaded]. *)
Lemma sites_callback_run data st :
  sites_callback data st = (Normal tt, loaded data st).
Proof.
  destruct data as [fs ts]. unfold sites_callback, loaded. simpl data_0. simpl data_1.
  change (jq_html fromField EmptyString) with (modify (emptied fromField)).
  change (jq_html toField EmptyString) with (modify (emptied toField)).
  set (s1 := emptied toField (emptied fromField st)).
  assert (Hfrom : forall B (k : M B),
    (when (truthy (List.length fs))
       (for_range 0 (List.length fs) (add_option fromField fs) ;;
        when (List.length fs =? 1)%nat
          (site <- read_site ;; jq_val fromField (fst site)) ;;
        jq_val inv_recv_type (JNum 11) ;;
        jq_change inv_recv_type) ;; k) s1
    = k match fs with
        | [] => s1
        | _ :: _ =>
            fired inv_recv_type
              (log (CallChange inv_recv_type)
                 (assigned inv_recv_type (JNum 11) (populated fromField fs s1)))
        end).
  { intros B k. destruct fs as [|f0 fs'].
    - reflexivity.
    - change (truthy (List.length (f0 :: fs'))) with true. unfold when at 1.
      unfold bind at 1. rewrite populate_then.
      unfold jq_val at 1, jq_change, bind, modify.
      rewrite fire_change_run. reflexivity. }
  unfold bind at 1. unfold modify at 1. unfold bind at 1. unfold modify at 1.
  fold s1. rewrite Hfrom.
  destruct ts as [|t0 ts'].
  - reflexivity.
  - change (List.length (t0 :: ts') =? 0)%nat with false. cbv iota.
    apply populate_run.
Qed.

(** *** Reading the fields, the trace and the queue back *)

Lemma emptied_field f st g :
  field_of (emptied f st) g =
  if field_id_eqb g f then mk_field None [] else field_of st g.
Proof. apply set_get_field. Qed.

Lemma log_field c st g : field_of (log c st) g = field_of st g.
Proof. reflexivity. Qed.

Lemma fired_field f st g : field_of (fired f st) g = field_of st g.
Proof. reflexivity. Qed.

Create Rewrite HintDb page_db.
#[local] Hint Rewrite emptied_field assigned_field log_field fired_field
  populated_field : page_db.

Lemma loaded_from data st :
  field_of (loaded data st) fromField =
  mk_field (shown (data_0 data)) (map option_of (data_0 data)).
Proof.
  destruct data as [fs ts]. simpl data_0.
  assert (H : forall s,
    field_of (populated fromField fs (emptied toField (emptied fromField s))) fromField
    = mk_field (shown fs) (map option_of fs)).
  { intros s. autorewrite with page_db. cbn [field_id_eqb fromField toField].
    apply populating_emptied. }
  unfold loaded. cbv zeta. simpl data_0. simpl data_1.
  destruct ts as [|t0 ts'].
  - destruct fs as [|f0 fs'].
    + apply (H st).
    + rewrite fired_field, log_field, assigned_field. apply H.
  - rewrite populated_field. cbn [field_id_eqb fromField toField].
    destruct fs as [|f0 fs'].
    + apply (H st).
    + rewrite fired_field, log_field, assigned_field. apply H.
Qed.

Lemma loaded_to data st :
  field_of (loaded data st) toField =
  mk_field (shown (data_1 data)) (map option_of (data_1 data)).
Proof.
  destruct data as [fs ts]. unfold loaded. cbv zeta. simpl data_0. simpl data_1.
  assert (H : forall s, field_of
      match fs with
      | [] => emptied toField (emptied fromField s)
      | _ :: _ =>
          fired inv_recv_type
            (log (CallChange inv_recv_type)
               (assigned inv_recv_type (JNum 11)
                  (populated fromField fs (emptied toField (emptied fromField s)))))
      end toField = mk_field None []).
  { intros s. destruct fs; autorewrite with page_db; reflexivity. }
  destruct ts as [|t0 ts'].
  - apply H.
  - rewrite populated_field. cbn [field_id_eqb toField]. rewrite H.
    apply populating_emptied.
Qed.

Lemma loaded_type data st :
  field_of (loaded data st) inv_recv_type =
  match data_0 data with
  | [] => field_of st inv_recv_type
  | _ :: _ =>
      mk_field (if offers_internal_shipment st then Some "11"%string else None)
               (options (field_of st inv_recv_type))
  end.
Proof.
  destruct data as [fs ts]. unfold loaded. cbv zeta. simpl data_0. simpl data_1.
  destruct fs, ts; autorewrite with page_db; reflexivity.
Qed.

Lemma loaded_offers data st :
  offers_internal_shipment (loaded data st) = offers_internal_shipment st.
Proof.
  unfold offers_internal_shipment, offers. rewrite loaded_type.
  destruct (data_0 data); reflexivity.
Qed.

Lemma loaded_req data st :
  field_of (loaded data st) reqField = field_of st reqField.
Proof.
  destruct data as [fs ts]. unfold loaded. cbv zeta. simpl data_0. simpl data_1.
  destruct fs, ts; autorewrite with page_db; reflexivity.
Qed.

Lemma emptied_trace f st :
  trace (emptied f st) = trace st ++ [CallHtml f EmptyString].
Proof. reflexivity. Qed.

Lemma assigned_trace f v st : trace (assigned f v st) = trace st ++ [CallVal f v].
Proof. reflexivity. Qed.

Lemma log_trace c st : trace (log c st) = trace st ++ [c].
Proof. reflexivity. Qed.

Lemma fired_trace f st : trace (fired f st) = trace st.
Proof. reflexivity. Qed.

#[local] Hint Rewrite emptied_trace assigned_trace log_trace fired_trace
  populated_trace : page_db.

Lemma loaded_trace data st :
  trace (loaded data st) = trace st ++ emitted data.
Proof.
  destruct data as [fs ts]. unfold loaded, emitted. cbv zeta. simpl data_0. simpl data_1.
  destruct fs as [|f0 fs'], ts as [|t0 ts']; autorewrite with page_db;
    repeat rewrite <- app_assoc; simpl; try rewrite app_nil_r; reflexivity.
Qed.

Lemma loaded_rest data st :
  S3_Ap (loaded data st) = S3_Ap st /\
  handlers (loaded data st) = handlers st /\
  pending (loaded data st) =
    pending st ++
    match data_0 data with
    | [] => []
    | _ :: _ => map (fun _ => request_for st) (bound_to inv_recv_type (handlers st))
    end.
Proof.
  destruct data as [fs ts]. unfold loaded. cbv zeta. simpl data_0. simpl data_1.
  set (s1 := emptied toField (emptied fromField st)).
  destruct (populated_rest fromField fs s1) as (A1 & A2 & A3).
  destruct fs as [|f0 fs'].
  - destruct ts as [|t0 ts'].
    + simpl. now rewrite app_nil_r.
    + destruct (populated_rest toField (t0 :: ts') s1) as (B1 & B2 & B3).
      rewrite B1, B2, B3. simpl. now rewrite app_nil_r.
  - set (s2 := fired _ _).
    assert (C : S3_Ap s2 = S3_Ap st /\ handlers s2 = handlers st /\
                pending s2 = pending st ++
                  map (fun _ => request_for st) (bound_to inv_recv_type (handlers st))).
    { unfold s2, fired. cbn [S3_Ap handlers pending with_pending log with_trace
                               assigned update_field with_fields].
      rewrite A1, A2, A3. repeat split.
      f_equal. apply map_ext. intros _. unfold request_for. f_equal.
      cbn [S3_Ap handlers pending with_pending log with_trace
             assigned update_field with_fields].
      rewrite A1. f_equal. f_equal.
      change (value (field_of (assigned inv_recv_type (JNum 11)
                (populated fromField (f0 :: fs') s1)) reqField)
              = value (field_of st reqField)).
      now autorewrite with page_db. }
    destruct ts as [|t0 ts'].
    + exact C.
    + destruct (populated_rest toField (t0 :: ts') s2) as (B1 & B2 & B3).
      rewrite B1, B2, B3. exact C.
Qed.

Lemma skipn_length_app {A} (l r : list A) : skipn (List.length l) (l ++ r) = r.
Proof. induction l as [|x l IH]; simpl; auto. Qed.

Lemma calls_during_callback data st :
  calls_during (sites_callback data) st = emitted data.
Proof.
  unfold calls_during, exec. rewrite sites_callback_run. simpl snd.
  rewrite loaded_trace. apply skipn_length_app.
Qed.

Lemma exec_callback data st : exec (sites_callback data) st = loaded data st.
Proof. unfold exec. now rewrite sites_callback_run. Qed.

(** *** The calls of one loop *)

Lemma calls_for_target f sites c : In c (calls_for f sites) -> target c = f.
Proof.
  unfold calls_for. intros H. apply in_app_or in H. destruct H as [H|H].
  - apply in_map_iff in H. destruct H as (s & <- & _). reflexivity.
  - destruct sites as [|s [|s' sites]]; simpl in H; try contradiction.
    destruct H as [<-|[]]. reflexivity.
Qed.

Lemma calls_for_not_html f sites c : In c (calls_for f sites) -> is_html c = false.
Proof.
  unfold calls_for. intros H. apply in_app_or in H. destruct H as [H|H].
  - apply in_map_iff in H. destruct H as (s & <- & _). reflexivity.
  - destruct sites as [|s [|s' sites]]; simpl in H; try contradiction.
    destruct H as [<-|[]]. reflexivity.
Qed.

Lemma is_val_on_target f c : is_val_on f c = true -> target c = f.
Proof. destruct c; simpl; try discriminate. apply field_id_eqb_eq. Qed.

Lemma calls_for_other f g sites c :
  field_id_eqb f g = false -> In c (calls_for f sites) -> is_val_on g c = false.
Proof.
  intros Hfg Hc. destruct (is_val_on g c) eqn:E; [|reflexivity].
  apply is_val_on_target in E. apply calls_for_target in Hc.
  rewrite Hc in E. subst g. now rewrite field_id_eqb_refl in Hfg.
Qed.

Lemma calls_for_many f sites c g :
  List.length sites <> 1 -> In c (calls_for f sites) -> is_val_on g c = false.
Proof.
  intros Hn Hc. unfold calls_for in Hc.
  destruct sites as [|s [|s' sites]]; simpl List.length in Hn; try congruence;
    rewrite app_nil_r in Hc; apply in_map_iff in Hc;
    destruct Hc as (x & <- & _); reflexivity.
Qed.

(** Where a call of the callback can come from. *)
Lemma emitted_in data c :
  In c (emitted data) ->
  c = CallHtml fromField EmptyString \/
  c = CallHtml toField EmptyString \/
  (data_0 data <> [] /\
   (In c (calls_for fromField (data_0 data)) \/
    c = CallVal inv_recv_type (JNum 11) \/
    c = CallChange inv_recv_type)) \/
  In c (calls_for toField (data_1 data)).
Proof.
  unfold emitted. intros H.
  apply in_app_or in H. destruct H as [[<-|[<-|[]]]|H]; auto.
  apply in_app_or in H. destruct H as [H|H]; auto.
  destruct (data_0 data) as [|f0 fs]; [contradiction|].
  right; right; left. split; [discriminate|].
  apply in_app_or in H. destruct H as [H|[<-|[<-|[]]]]; auto.
Qed.

(* ================================================================== *)
(** ** The success callback *)

(** The two sample responses of the form's documentation: one from-site
    and two to-sites, and no site at all.  With two to-sites no value is
    set by the script and the drop-down shows its first option. *)
Example one_from_two_to :
  let data := mk_response [(JStr "1", JStr "Warehouse A")]
                          [(JStr "2", JStr "Warehouse B"); (JStr "3", JStr "Warehouse C")] in
  let after := exec (sites_callback data) sample_page in
  field_of after fromField = mk_field (Some "1"%string) [mk_option "Warehouse A" "1"] /\
  field_of after toField =
    mk_field (Some "2"%string)
             [mk_option "Warehouse B" "2"; mk_option "Warehouse C" "3"] /\
  value (field_of after inv_recv_type) = Some "11"%string /\
  calls_during (sites_callback data) sample_page =
    [CallHtml fromField EmptyString; CallHtml toField EmptyString;
     CallAppend fromField (mk_option "Warehouse A" "1");
     CallVal fromField (JStr "1");
     CallVal inv_recv_type (JNum 11); CallChange inv_recv_type;
     CallAppend toField (mk_option "Warehouse B" "2");
     CallAppend toField (mk_option "Warehouse C" "3")].
Proof. repeat split. Qed.

Example no_sites_at_all :
  let after := exec (sites_callback (mk_response [] [])) sample_page in
  field_of after fromField = mk_field None [] /\
  field_of after toField = mk_field None [] /\
  field_of after inv_recv_type = field_of sample_page inv_recv_type /\
  calls_during (sites_callback (mk_response [] [])) sample_page =
    [CallHtml fromField EmptyString; CallHtml toField EmptyString].
Proof. repeat split. Qed.

(** C1: when the response lists exactly one from-site and exactly one
    to-site, on a page whose shipment-type field offers 11, the callback
    returns with the from-field's value set to the from-site's id, the
    to-field's value set to the to-site's id, and the shipment-type field's
    value set to 11 (ids as the page stores them, as text). *)
Theorem single_sites_are_selected (data : response) (st : page) (f t : site_t) :
  offers_internal_shipment st = true ->
  data_0 data = [f] ->
  data_1 data = [t] ->
  fst (sites_callback data st) = Normal tt /\
  value (field_of (exec (sites_callback data) st) fromField) = Some (ToString (fst f)) /\
  value (field_of (exec (sites_callback data) st) toField) = Some (ToString (fst t)) /\
  value (field_of (exec (sites_callback data) st) inv_recv_type) = Some "11"%string.
Proof.
  intros Ho Hf Ht. rewrite exec_callback, sites_callback_run.
  rewrite loaded_from, loaded_to, loaded_type, Hf, Ht, Ho.
  repeat split.
Qed.

Lemma single_sites_are_selected_witness :
  fst (sites_callback one_to_one sample_page) = Normal tt /\
  value (field_of (exec (sites_callback one_to_one) sample_page) fromField) = Some "7"%string /\
  value (field_of (exec (sites_callback one_to_one) sample_page) toField) = Some "2"%string /\
  value (field_of (exec (sites_callback one_to_one) sample_page) inv_recv_type) = Some "11"%string.
Proof.
  exact (single_sites_are_selected one_to_one sample_page
           (JNum 7, JStr "Warehouse A") (JStr "2", JStr "Warehouse B")
           eq_refl eq_refl eq_refl).
Defined.

(** C2: whenever the from-site list is not empty, whatever its length and
    whatever the to-site list holds (empty included), on a page whose
    shipment-type field offers 11 the callback sets that field's value to
    11 and then triggers its change event: the call is made, after it only
    calls on the to-field follow, and every handler bound to the
    shipment-type field has run once (each queues its request). *)
Theorem shipment_type_is_set (data : response) (st : page) :
  offers_internal_shipment st = true ->
  data_0 data <> [] ->
  fst (sites_callback data st) = Normal tt /\
  value (field_of (exec (sites_callback data) st) inv_recv_type) = Some "11"%string /\
  (exists before after,
    calls_during (sites_callback data) st =
    before ++ [CallVal inv_recv_type (JNum 11); CallChange inv_recv_type] ++ after /\
    (forall c, In c after -> target c = toField)) /\
  pending (exec (sites_callback data) st) =
    pending st ++
    map (fun _ => request_of (S3_Ap st) (value (field_of st reqField)))
        (bound_to inv_recv_type (handlers st)).
Proof.
  intros Ho Hne. rewrite exec_callback, sites_callback_run, calls_during_callback.
  destruct (loaded_rest data st) as (_ & _ & Hp). rewrite Hp.
  rewrite loaded_type, Ho. unfold emitted.
  destruct (data_0 data) as [|f0 fs] eqn:E; [congruence|].
  split; [reflexivity|]. split; [reflexivity|]. split; [|reflexivity].
  exists ([CallHtml fromField EmptyString; CallHtml toField EmptyString]
          ++ calls_for fromField (f0 :: fs)), (calls_for toField (data_1 data)).
  split.
  - now repeat rewrite <- app_assoc.
  - intros c. apply calls_for_target.
Qed.

Lemma shipment_type_is_set_witness :
  value (field_of (exec (sites_callback two_to_none) sample_page) inv_recv_type)
  = Some "11"%string.
Proof.
  apply (shipment_type_is_set two_to_none sample_page); [reflexivity|discriminate].
Defined.

(** C3: when the to-site list is empty, the callback returns with no
    option in the to-field, whatever the from-site list holds; after
    emptying the to-field it makes no further call on it. *)
Theorem empty_to_list_leaves_no_options (data : response) (st : page) :
  data_1 data = [] ->
  fst (sites_callback data st) = Normal tt /\
  options (field_of (exec (sites_callback data) st) toField) = [] /\
  (forall c, In c (calls_during (sites_callback data) st) ->
     target c = toField -> c = CallHtml toField EmptyString).
Proof.
  intros Ht. rewrite exec_callback, sites_callback_run, calls_during_callback.
  rewrite loaded_to, Ht. repeat split.
  intros c Hc Htarget. unfold emitted in Hc. rewrite Ht in Hc.
  simpl in Hc. destruct Hc as [<-|[<-|Hc]]; try discriminate; try reflexivity.
  rewrite app_nil_r in Hc.
  destruct (data_0 data) as [|f0 fs]; [contradiction|].
  apply in_app_or in Hc. destruct Hc as [Hc|Hc].
  - apply calls_for_target in Hc. rewrite Hc in Htarget. discriminate.
  - destruct Hc as [<-|[<-|[]]]; discriminate.
Qed.

Lemma empty_to_list_leaves_no_options_witness :
  options (field_of (exec (sites_callback two_to_none) sample_page) toField) = [].
Proof.
  apply (empty_to_list_leaves_no_options two_to_none sample_page). reflexivity.
Defined.

(** C4: when the from-site list has n > 1 entries, the callback returns
    with exactly n options in the from-field, one per entry and in the
    entries' order, the entry's first element as the option's value and its
    second as the option's label, and it makes no call that sets the
    from-field's value. *)
Theorem many_from_sites_are_listed (data : response) (st : page) :
  1 < List.length (data_0 data) ->
  fst (sites_callback data st) = Normal tt /\
  options (field_of (exec (sites_callback data) st) fromField) =
    map (fun s => mk_option (ToString (snd s)) (ToString (fst s))) (data_0 data) /\
  List.length (options (field_of (exec (sites_callback data) st) fromField)) =
    List.length (data_0 data) /\
  (forall c, In c (calls_during (sites_callback data) st) ->
     is_val_on fromField c = false).
Proof.
  intros Hn. rewrite exec_callback, sites_callback_run, calls_during_callback.
  rewrite loaded_from. simpl options. rewrite length_map.
  repeat split.
  intros c Hc. apply emitted_in in Hc.
  destruct Hc as [->|[->|[(_ & [Hc|[->| ->]])|Hc]]]; try reflexivity.
  - apply (calls_for_many fromField (data_0 data)); [lia|exact Hc].
  - apply (calls_for_other toField fromField (data_1 data)); [reflexivity|exact Hc].
Qed.

Lemma many_from_sites_are_listed_witness :
  options (field_of (exec (sites_callback two_to_none) sample_page) fromField) =
    [mk_option "Warehouse A" "7"; mk_option "Warehouse B" "8"].
Proof.
  apply (many_from_sites_are_listed two_to_none sample_page). simpl. lia.
Defined.

(** C5: for every response and every page, the callback's first two calls
    empty the from-field and the to-field (after them neither field has an
    option), and none of the calls after them empties anything; so every
    option appended and every value assigned comes after both fields were
    emptied, and each field ends with exactly the options of its list, none
    of the earlier ones. *)
Theorem options_are_cleared_first (data : response) (st : page) :
  fst (sites_callback data st) = Normal tt /\
  (exists rest,
     calls_during (sites_callback data) st =
       CallHtml fromField EmptyString :: CallHtml toField EmptyString :: rest /\
     forall c, In c rest -> is_html c = false) /\
  (let cleared :=
     exec (jq_html fromField EmptyString ;; jq_html toField EmptyString) st in
   options (field_of cleared fromField) = [] /\
   options (field_of cleared toField) = []) /\
  options (field_of (exec (sites_callback data) st) fromField) =
    map option_of (data_0 data) /\
  options (field_of (exec (sites_callback data) st) toField) =
    map option_of (data_1 data).
Proof.
  rewrite exec_callback, sites_callback_run, calls_during_callback.
  rewrite loaded_from, loaded_to. repeat split.
  unfold emitted. eexists. split; [reflexivity|].
  intros c Hc. apply in_app_or in Hc. destruct Hc as [Hc|Hc].
  - destruct (data_0 data) as [|f0 fs]; [contradiction|].
    apply in_app_or in Hc. destruct Hc as [Hc|Hc].
    + exact (calls_for_not_html _ _ _ Hc).
    + destruct Hc as [<-|[<-|[]]]; reflexivity.
  - exact (calls_for_not_html _ _ _ Hc).
Qed.

(** C6: for every response and every page, running the callback a second
    time on the same response leaves the from-field, the to-field and the
    shipment-type field exactly as the first run left them. *)
Theorem callback_is_idempotent (data : response) (st : page) :
  let once := exec (sites_callback data) st in
  let twice := exec (sites_callback data) once in
  fst (sites_callback data st) = Normal tt /\
  fst (sites_callback data once) = Normal tt /\
  field_of twice fromField = field_of once fromField /\
  field_of twice toField = field_of once toField /\
  field_of twice inv_recv_type = field_of once inv_recv_type.
Proof.
  cbv zeta. rewrite !exec_callback, !sites_callback_run.
  rewrite !loaded_from, !loaded_to, !loaded_type, loaded_offers.
  repeat split.
  destruct (data_0 data); reflexivity.
Qed.

(** C9: when the from-site list is empty, the callback leaves the
    shipment-type field as it was, makes no call on it (so neither sets its
    value nor triggers its change event, and queues nothing), and makes no
    call that sets the from-field's value; the to-site list is processed
    as usual: after the two fields are emptied the calls are exactly those
    for the to-list, and the to-field ends with that list's options. *)
Theorem empty_from_list_spares_shipment_type (data : response) (st : page) :
  data_0 data = [] ->
  fst (sites_callback data st) = Normal tt /\
  field_of (exec (sites_callback data) st) inv_recv_type = field_of st inv_recv_type /\
  (forall c, In c (calls_during (sites_callback data) st) ->
     target c <> inv_recv_type /\ is_val_on fromField c = false) /\
  pending (exec (sites_callback data) st) = pending st /\
  options (field_of (exec (sites_callback data) st) toField) =
    map option_of (data_1 data) /\
  calls_during (sites_callback data) st =
    CallHtml fromField EmptyString :: CallHtml toField EmptyString ::
    calls_for toField (data_1 data).
Proof.
  intros Hf. rewrite exec_callback, sites_callback_run, calls_during_callback.
  rewrite loaded_to, loaded_type.
  destruct (loaded_rest data st) as (_ & _ & Hp). rewrite Hp, Hf, app_nil_r.
  split; [reflexivity|]. split; [reflexivity|].
  split; [|split; [reflexivity|split; [reflexivity|unfold emitted; now rewrite Hf]]].
  intros c Hc. apply emitted_in in Hc.
  destruct Hc as [->|[->|[(Hne & _)|Hc]]];
    try (split; [discriminate|reflexivity]); try congruence.
  split.
  - rewrite (calls_for_target _ _ _ Hc). discriminate.
  - apply (calls_for_other toField fromField (data_1 data)); [reflexivity|exact Hc].
Qed.

Lemma empty_from_list_spares_shipment_type_witness :
  field_of (exec (sites_callback none_to_two) sample_page) inv_recv_type =
    field_of sample_page inv_recv_type /\
  options (field_of (exec (sites_callback none_to_two) sample_page) toField) =
    [mk_option "Warehouse B" "2"; mk_option "Warehouse C" "3"].
Proof.
  destruct (empty_from_list_spares_shipment_type none_to_two sample_page eq_refl)
    as (_ & Htype & _ & _ & Hto & _).
  split; [exact Htype|exact Hto].
Defined.

(** C10: for every response and every page, the callback leaves the
    request selector, value and options, as it was; every call it makes is
    on the from-field, the to-field or the shipment-type field. *)
Theorem request_selector_is_untouched (data : response) (st : page) :
  fst (sites_callback data st) = Normal tt /\
  field_of (exec (sites_callback data) st) link_defaultreq = field_of st link_defaultreq /\
  (forall c, In c (calls_during (sites_callback data) st) ->
     target c = inv_recv_from_site_id \/
     target c = inv_recv_site_id \/
     target c = inv_recv_type).
Proof.
  rewrite exec_callback, sites_callback_run, calls_during_callback.
  split; [reflexivity|]. split; [apply loaded_req|].
  intros c Hc. apply emitted_in in Hc.
  destruct Hc as [->|[->|[(_ & [Hc|[->| ->]])|Hc]]]; auto.
  - left. exact (calls_for_target _ _ _ Hc).
  - right; left. exact (calls_for_target _ _ _ Hc).
Qed.

(* ================================================================== *)
(** ** The change handler and the fetch *)

Lemma run_handler_run h st :
  run_handler h st = (Normal tt, queued (ajax_url (request_for st)) sites_loaded st).
Proof. destruct h. reflexivity. Qed.

Lemma bound_to_app f hs hs' : bound_to f (hs ++ hs') = bound_to f hs ++ bound_to f hs'.
Proof. unfold bound_to. now rewrite filter_app, map_app. Qed.

(** An event other than a successful response leaves the three dependent
    fields and the record of jQuery calls alone. *)
Lemma deliver_without_success e st :
  is_success e = false ->
  trace (deliver e st) = trace st /\
  forall f, dependent f = true -> field_of (deliver e st) f = field_of st f.
Proof.
  intros He. destruct e as [v|k data|k]; [|discriminate|].
  - unfold deliver, exec. rewrite fire_change_run. simpl snd.
    split; [reflexivity|]. intros f Hf. rewrite fired_field.
    unfold field_of, update_field. cbn [fields with_fields].
    rewrite set_get_field. destruct f; try discriminate; reflexivity.
  - unfold deliver. destruct (nth_error (pending st) k) as [r|]; [|auto].
    destruct (ajax_error r) as [h|]; [|auto].
    unfold exec. rewrite run_handler_run. auto.
Qed.

(** C7: once the script has bound its handler, a change of the request
    selector to any value, the empty one included, queues exactly one GET,
    for the base path followed by '/inv/req/recv_sites.json?req_id=' and the
    value as JavaScript prints it; nothing else on the page is touched at
    that point. *)
Theorem change_issues_one_get (st : page) (v : option string) :
  bound_to reqField (handlers st) = [] ->
  let bound := exec ready st in
  let after := deliver (UserSelects v) bound in
  fst (ready st) = Normal tt /\
  pending after =
    pending st ++
    [mk_ajax GET
       (S3_Ap st ++ "/inv/req/recv_sites.json?req_id=" ++
        match v with Some id => id | None => "null" end)%string
       sites_loaded None] /\
  value (field_of after reqField) = v /\
  trace after = trace st /\
  (forall f, dependent f = true -> field_of after f = field_of st f).
Proof.
  intros Hnone. cbv zeta. split; [reflexivity|].
  destruct (deliver_without_success (UserSelects v) (exec ready st) eq_refl) as (Ht & Hf).
  split; [|split; [|split; [exact Ht|exact Hf]]].
  - unfold deliver, exec. rewrite fire_change_run. simpl snd.
    unfold fired. cbn [pending with_pending handlers update_field with_fields
                         ready jq_on_change modify snd with_handlers].
    rewrite bound_to_app, Hnone. reflexivity.
  - unfold deliver, exec. rewrite fire_change_run. reflexivity.
Qed.

Lemma change_issues_one_get_witness :
  pending (deliver (UserSelects (Some EmptyString)) (exec ready sample_page)) =
    [mk_ajax GET "/eden/inv/req/recv_sites.json?req_id=" sites_loaded None].
Proof.
  apply (change_issues_one_get sample_page (Some EmptyString)). reflexivity.
Defined.

(** C8: the script gives the helper no function to call on failure, and
    over any sequence of events in which no request succeeds (selections
    by the user and failed requests, in any order) the from-field, the
    to-field and the shipment-type field stay exactly as they were. *)
Theorem failed_fetch_changes_nothing (es : list event) (st : page) :
  forallb (fun e => negb (is_success e)) es = true ->
  (forall req_id s,
     fst (lookupSites req_id s) = Normal tt /\
     map ajax_error (pending (exec (lookupSites req_id) s)) =
       map ajax_error (pending s) ++ [None]) /\
  field_of (run_events es st) fromField = field_of st fromField /\
  field_of (run_events es st) toField = field_of st toField /\
  field_of (run_events es st) inv_recv_type = field_of st inv_recv_type /\
  trace (run_events es st) = trace st.
Proof.
  intros Hes. split.
  { intros req_id s. split; [reflexivity|].
    unfold exec, lookupSites, bind, reads, getJSONS3, modify, queued. simpl.
    now rewrite map_app. }
  assert (H : trace (run_events es st) = trace st /\
              forall f, dependent f = true ->
                field_of (run_events es st) f = field_of st f).
  { revert st. induction es as [|e es IH]; intros st; [auto|].
    simpl in Hes. apply andb_true_iff in Hes. destruct Hes as [He Hes].
    apply negb_true_iff in He.
    destruct (deliver_without_success e st He) as (Ht & Hf).
    destruct (IH Hes (deliver e st)) as (Ht' & Hf').
    unfold run_events in *. simpl fold_left. split.
    - now rewrite Ht'.
    - intros f Hd. now rewrite Hf', Hf. }
  destruct H as (Ht & Hf). repeat split; auto.
Qed.

Lemma failed_fetch_changes_nothing_witness :
  let es := [UserSelects (Some "5"%string); Fails 0; UserSelects None; Fails 3] in
  field_of (run_events es (exec ready sample_page)) fromField =
    field_of sample_page fromField /\
  field_of (run_events es (exec ready sample_page)) toField =
    field_of sample_page toField /\
  field_of (run_events es (exec ready sample_page)) inv_recv_type =
    field_of sample_page inv_recv_type.
Proof.
  destruct (failed_fetch_changes_nothing
              [UserSelects (Some "5"%string); Fails 0; UserSelects None; Fails 3]
              (exec ready sample_page) eq_refl)
    as (_ & Hfrom & Hto & Htype & _).
  cbv zeta. repeat split; assumption.
Defined.

(* ================================================================== *)
(** ** Responses one after another *)

Lemma loaded_type_options data st :
  options (field_of (loaded data st) inv_recv_type) =
  options (field_of st inv_recv_type).
Proof. rewrite loaded_type. destruct (data_0 data); reflexivity. Qed.

(** X1: the site selectors after a response show that response alone: what
    an earlier response put there is gone, whichever request it answered. *)
Theorem last_response_wins (earlier later : response) (st : page) :
  let both := exec (sites_callback later) (exec (sites_callback earlier) st) in
  let alone := exec (sites_callback later) st in
  field_of both fromField = field_of alone fromField /\
  field_of both toField = field_of alone toField /\
  options (field_of both fromField) = map option_of (data_0 later) /\
  options (field_of both toField) = map option_of (data_1 later).
Proof.
  cbv zeta. rewrite !exec_callback, !loaded_from, !loaded_to. repeat split.
Qed.

(** X2: the shipment type is only ever set, never put back: on a page
    whose shipment-type field offers 11, after a response with from-sites a
    response without any leaves it at 11, although the from-field then has
    no option. *)
Theorem shipment_type_is_never_reset (earlier later : response) (st : page) :
  offers_internal_shipment st = true ->
  data_0 earlier <> [] ->
  data_0 later = [] ->
  let both := exec (sites_callback later) (exec (sites_callback earlier) st) in
  value (field_of both inv_recv_type) = Some "11"%string /\
  options (field_of both fromField) = [] /\
  options (field_of both inv_recv_type) = options (field_of st inv_recv_type).
Proof.
  intros Ho Hne He. cbv zeta. rewrite !exec_callback.
  rewrite loaded_from, !loaded_type_options, loaded_type, He, loaded_type, Ho.
  destruct (data_0 earlier) as [|f0 fs]; [congruence|]. repeat split.
Qed.

Lemma shipment_type_is_never_reset_witness :
  value (field_of (exec (sites_callback none_to_two)
                        (exec (sites_callback two_to_none) sample_page))
                  inv_recv_type) = Some "11"%string.
Proof.
  apply (shipment_type_is_never_reset two_to_none none_to_two sample_page).
  - reflexivity.
  - discriminate.
  - reflexivity.
Defined.



(** X4: the callback makes a call that sets the value of the from-field
    (respectively the to-field) exactly when the from-list (respectively
    the to-list) has one entry; with no entry or with several it makes
    none and the selection is left to the drop-down. *)
Theorem value_is_forced_only_for_one_site (data : response) (st : page) :
  (List.length (data_0 data) = 1 <->
   existsb (is_val_on fromField) (calls_during (sites_callback data) st) = true) /\
  (List.length (data_1 data) = 1 <->
   existsb (is_val_on toField) (calls_during (sites_callback data) st) = true).
Proof.
  rewrite calls_during_callback. split; split.
  - intros H. apply existsb_exists. unfold emitted.
    destruct (data_0 data) as [|s [|s' l]]; try discriminate.
    exists (CallVal fromField (fst s)). split; [|reflexivity].
    simpl. auto.
  - intros H. apply existsb_exists in H. destruct H as (c & Hc & Hv).
    destruct (Nat.eq_dec (List.length (data_0 data)) 1) as [E|E]; [exact E|exfalso].
    apply emitted_in in Hc.
    destruct Hc as [->|[->|[(_ & [Hc|[->| ->]])|Hc]]]; try discriminate.
    + rewrite (calls_for_many fromField _ c fromField E Hc) in Hv. discriminate.
    + rewrite (calls_for_other toField fromField _ c eq_refl Hc) in Hv. discriminate.
  - intros H. apply existsb_exists. unfold emitted.
    destruct (data_1 data) as [|s [|s' l]]; try discriminate.
    exists (CallVal toField (fst s)). split; [|reflexivity].
    apply in_or_app. right. apply in_or_app. right. simpl. auto.
  - intros H. apply existsb_exists in H. destruct H as (c & Hc & Hv).
    destruct (Nat.eq_dec (List.length (data_1 data)) 1) as [E|E]; [exact E|exfalso].
    apply emitted_in in Hc.
    destruct Hc as [->|[->|[(_ & [Hc|[->| ->]])|Hc]]]; try discriminate.
    + rewrite (calls_for_other fromField toField _ c eq_refl Hc) in Hv. discriminate.
    + rewrite (calls_for_many toField _ c toField E Hc) in Hv. discriminate.
Qed.

(** X5: lines 47-55 treat the to-list as lines 28-36 treat the from-list: with
    more than one to-site the to-field gets one option per entry, in order,
    and no call sets its value. *)
Theorem many_to_sites_are_listed (data : response) (st : page) :
  1 < List.length (data_1 data) ->
  options (field_of (exec (sites_callback data) st) toField) =
    map (fun s => mk_option (ToString (snd s)) (ToString (fst s))) (data_1 data) /\
  (forall c, In c (calls_during (sites_callback data) st) ->
     is_val_on toField c = false).
Proof.
  intros Hn. rewrite exec_callback, calls_during_callback, loaded_to.
  split; [reflexivity|].
  intros c Hc. apply emitted_in in Hc.
  destruct Hc as [->|[->|[(_ & [Hc|[->| ->]])|Hc]]]; try reflexivity.
  - apply (calls_for_other fromField toField (data_0 data)); [reflexivity|exact Hc].
  - apply (calls_for_many toField (data_1 data)); [lia|exact Hc].
Qed.

Lemma many_to_sites_are_listed_witness :
  options (field_of (exec (sites_callback one_to_two) sample_page) toField) =
    [mk_option "Warehouse B" "2"; mk_option "Warehouse C" "3"].
Proof.
  apply (many_to_sites_are_listed one_to_two sample_page). simpl. lia.
Defined.

(* ================================================================== *)
(** ** Selections and responses over time *)

Lemma map_constant {A B} (b : B) (l : list A) :
  map (fun _ => b) l = repeat b (List.length l).
Proof. induction l as [|a l IH]; simpl; congruence. Qed.

Lemma bound_only_to_other f g hs :
  bound_only_to f hs = true -> field_id_eqb f g = false -> bound_to g hs = [].
Proof.
  unfold bound_only_to, bound_to. intros H Hfg.
  induction hs as [|[f' h] hs IH]; [reflexivity|].
  simpl in H. apply andb_true_iff in H. destruct H as [Hf H].
  apply field_id_eqb_eq in Hf. subst f'. simpl. rewrite Hfg. auto.
Qed.

Lemma take_out_last {A} (l : list A) r : take_out (List.length l) (l ++ [r]) = l.
Proof.
  unfold take_out. induction l as [|a l IH]; [reflexivity|].
  simpl. simpl in IH. now rewrite IH.
Qed.

(** A selection, spelled out. *)
Lemma deliver_select v st :
  deliver (UserSelects v) st =
  fired reqField (update_field reqField (fun x => mk_field v (options x)) st).
Proof. unfold deliver, exec. now rewrite fire_change_run. Qed.

Lemma select_pending v st :
  pending (deliver (UserSelects v) st) =
  pending st ++ map (fun _ => request_of (S3_Ap st) v) (bound_to reqField (handlers st)).
Proof. rewrite deliver_select. reflexivity. Qed.

(** A successful response to an outstanding request, spelled out. *)
Lemma deliver_success k data r st :
  nth_error (pending st) k = Some r ->
  deliver (Succeeds k data) st =
  loaded data (with_pending (take_out k (pending st)) st).
Proof.
  intros H. unfold deliver. rewrite H. destruct (ajax_success r).
  apply exec_callback.
Qed.

(** No event binds a handler or moves the base path. *)
Lemma deliver_keeps_bindings e st :
  handlers (deliver e st) = handlers st /\ S3_Ap (deliver e st) = S3_Ap st.
Proof.
  destruct e as [v|k data|k].
  - rewrite deliver_select. split; reflexivity.
  - unfold deliver. destruct (nth_error (pending st) k) as [r|]; [|auto].
    destruct (ajax_success r). rewrite exec_callback.
    destruct (loaded_rest data (with_pending (take_out k (pending st)) st))
      as (H1 & H2 & _).
    rewrite H1, H2. auto.
  - unfold deliver. destruct (nth_error (pending st) k) as [r|]; [|auto].
    destruct (ajax_error r) as [h|]; [|auto].
    unfold exec. rewrite run_handler_run. auto.
Qed.

(** X6: whatever happens on the page after the script is loaded, the handlers
    bound and the base path stay what they were: only the ready function
    binds a handler, and it binds exactly one, on the request selector. *)
Theorem bindings_are_fixed_at_ready (es : list event) (st : page) :
  handlers (exec ready st) = handlers st ++ [(link_defaultreq, req_changed)] /\
  handlers (run_events es st) = handlers st /\
  S3_Ap (run_events es st) = S3_Ap st.
Proof.
  split; [reflexivity|].
  revert st. induction es as [|e es IH]; intros st; [auto|].
  unfold run_events in *. simpl fold_left.
  destruct (IH (deliver e st)) as (H1 & H2).
  destruct (deliver_keeps_bindings e st) as (H3 & H4).
  rewrite H1, H2. auto.
Qed.

(** X7: a selection queues one request per handler bound to the request
    selector, all for the selected value; each run of the ready function
    adds one such handler, so a script loaded twice fetches twice. *)
Theorem selection_queues_one_request_per_binding (v : option string) (st : page) :
  pending (deliver (UserSelects v) st) =
    pending st ++
    repeat (request_of (S3_Ap st) v) (List.length (bound_to reqField (handlers st))) /\
  List.length (bound_to reqField (handlers (exec ready st))) =
    S (List.length (bound_to reqField (handlers st))).
Proof.
  split.
  - rewrite select_pending. now rewrite map_constant.
  - change (handlers (exec ready st)) with (handlers st ++ [(reqField, req_changed)]).
    rewrite bound_to_app, length_app. simpl. lia.
Qed.

(** X8: nothing is cancelled: with the script loaded once, a run of selections
    leaves one outstanding request per selection, in the order of the
    selections, each for the value chosen at that moment. *)
Theorem every_selection_stays_outstanding (vs : list (option string)) (st : page) :
  bound_to reqField (handlers st) = [req_changed] ->
  pending (run_events (map UserSelects vs) st) =
    pending st ++ map (request_of (S3_Ap st)) vs.
Proof.
  revert st. induction vs as [|v vs IH]; intros st Hb.
  - simpl. now rewrite app_nil_r.
  - destruct (deliver_keeps_bindings (UserSelects v) st) as (Hh & Ha).
    assert (Hb' : bound_to reqField (handlers (deliver (UserSelects v) st)) = [req_changed])
      by (rewrite Hh; exact Hb).
    specialize (IH (deliver (UserSelects v) st) Hb').
    change (run_events (map UserSelects (v :: vs)) st)
      with (run_events (map UserSelects vs) (deliver (UserSelects v) st)).
    rewrite IH, Ha, select_pending, Hb. simpl map. now rewrite <- app_assoc.
Qed.

Lemma every_selection_stays_outstanding_witness :
  pending (run_events (map UserSelects [Some "4"; Some "5"; None]%string) ready_page) =
    [request_of "/eden" (Some "4"%string);
     request_of "/eden" (Some "5"%string);
     request_of "/eden" None].
Proof.
  apply (every_selection_stays_outstanding [Some "4"; Some "5"; None]%string ready_page).
  reflexivity.
Defined.

(** X9: setting the shipment type and triggering its change event does not
    start a fetch of its own: with the script's handlers all on the request
    selector, the callback leaves the queue of requests as it found it. *)
Theorem callback_starts_no_fetch (data : response) (st : page) :
  bound_only_to reqField (handlers st) = true ->
  pending (exec (sites_callback data) st) = pending st.
Proof.
  intros Hb. rewrite exec_callback.
  destruct (loaded_rest data st) as (_ & _ & Hp). rewrite Hp.
  rewrite (bound_only_to_other reqField inv_recv_type _ Hb eq_refl).
  destruct (data_0 data); apply app_nil_r.
Qed.

Lemma callback_starts_no_fetch_witness :
  pending (exec (sites_callback one_to_two) ready_page) = [].
Proof.
  apply (callback_starts_no_fetch one_to_two ready_page). reflexivity.
Defined.

Lemma deliver_success_page k data r st :
  nth_error (pending st) k = Some r ->
  bound_only_to reqField (handlers st) = true ->
  pending (deliver (Succeeds k data) st) = take_out k (pending st) /\
  field_of (deliver (Succeeds k data) st) fromField =
    mk_field (shown (data_0 data)) (map option_of (data_0 data)) /\
  field_of (deliver (Succeeds k data) st) toField =
    mk_field (shown (data_1 data)) (map option_of (data_1 data)) /\
  field_of (deliver (Succeeds k data) st) reqField = field_of st reqField /\
  trace (deliver (Succeeds k data) st) = trace st ++ emitted data.
Proof.
  intros Hk Hb. rewrite (deliver_success k data r st Hk).
  set (st0 := with_pending (take_out k (pending st)) st).
  destruct (loaded_rest data st0) as (_ & _ & Hp).
  rewrite Hp, loaded_from, loaded_to, loaded_req, loaded_trace.
  change (handlers st0) with (handlers st).
  rewrite (bound_only_to_other reqField inv_recv_type _ Hb eq_refl).
  repeat split. destruct (data_0 data); apply app_nil_r.
Qed.

Lemma select_page v st :
  field_of (deliver (UserSelects v) st) reqField =
    mk_field v (options (field_of st reqField)) /\
  (forall f, dependent f = true -> field_of (deliver (UserSelects v) st) f = field_of st f) /\
  trace (deliver (UserSelects v) st) = trace st.
Proof.
  destruct (deliver_without_success (UserSelects v) st eq_refl) as (Ht & Hf).
  split; [|split; assumption].
  rewrite deliver_select, fired_field. unfold field_of, update_field.
  cbn [fields with_fields]. now rewrite set_get_field, field_id_eqb_refl.
Qed.

(** X10: the whole round on a page where the script was loaded once: a
    selection followed by the response to the request it queued leaves the
    queue as it was, the selector on the chosen value with its options, and
    both site selectors offering the sites of the response; the calls made
    are those of the callback and no others. *)
Theorem selection_then_response (v : option string) (data : response) (st : page) :
  handlers st = [(link_defaultreq, req_changed)] ->
  let asked := deliver (UserSelects v) st in
  let answered := deliver (Succeeds (List.length (pending st)) data) asked in
  nth_error (pending asked) (List.length (pending st)) = Some (request_of (S3_Ap st) v) /\
  pending answered = pending st /\
  field_of answered reqField = mk_field v (options (field_of st reqField)) /\
  options (field_of answered fromField) = map option_of (data_0 data) /\
  options (field_of answered toField) = map option_of (data_1 data) /\
  trace answered = trace st ++ emitted data.
Proof.
  intros Hh. cbv zeta.
  assert (Hp : pending (deliver (UserSelects v) st)
               = pending st ++ [request_of (S3_Ap st) v]).
  { rewrite select_pending, Hh. reflexivity. }
  assert (Hk : nth_error (pending (deliver (UserSelects v) st)) (List.length (pending st))
               = Some (request_of (S3_Ap st) v)).
  { rewrite Hp. apply nth_error_middle. }
  destruct (deliver_keeps_bindings (UserSelects v) st) as (Hh' & _).
  assert (Hb : bound_only_to reqField (handlers (deliver (UserSelects v) st)) = true)
    by (rewrite Hh', Hh; reflexivity).
  destruct (deliver_success_page _ data _ _ Hk Hb) as (A & B & C & D & E).
  destruct (select_page v st) as (Hr & _ & Ht).
  split; [exact Hk|].
  rewrite A, B, C, D, E, Hp, Hr, Ht, take_out_last. repeat split.
Qed.

Lemma selection_then_response_witness :
  let answered :=
    deliver (Succeeds 0 one_to_two) (deliver (UserSelects (Some "5"%string)) ready_page) in
  options (field_of answered fromField) = [mk_option "Warehouse A" "7"] /\
  options (field_of answered toField) =
    [mk_option "Warehouse B" "2"; mk_option "Warehouse C" "3"].
Proof.
  destruct (selection_then_response (Some "5"%string) one_to_two ready_page eq_refl)
    as (_ & _ & _ & Hf & Ht & _).
  cbv zeta. split; [exact Hf|exact Ht].
Defined.

(** X11: responses are applied as they arrive, not as they were asked for: when
    the user selects [a], then [b], and the answer for [b] arrives before
    the answer for [a], the selector shows [b] but both site selectors end
    up offering the sites of [a]. *)
Theorem late_response_overwrites (a b : option string) (for_a for_b : response) (st : page) :
  handlers st = [(link_defaultreq, req_changed)] ->
  pending st = [] ->
  let asked := run_events [UserSelects a; UserSelects b] st in
  let final := run_events [Succeeds 1 for_b; Succeeds 0 for_a] asked in
  pending asked = [request_of (S3_Ap st) a; request_of (S3_Ap st) b] /\
  pending (deliver (Succeeds 1 for_b) asked) = [request_of (S3_Ap st) a] /\
  pending final = [] /\
  value (field_of final reqField) = b /\
  options (field_of final fromField) = map option_of (data_0 for_a) /\
  options (field_of final toField) = map option_of (data_1 for_a).
Proof.
  intros Hh Hq. cbv zeta.
  assert (Hbound : bound_to reqField (handlers st) = [req_changed])
    by (rewrite Hh; reflexivity).
  set (s1 := deliver (UserSelects a) st).
  set (s2 := deliver (UserSelects b) s1).
  change (run_events [UserSelects a; UserSelects b] st) with s2.
  destruct (deliver_keeps_bindings (UserSelects a) st) as (Hh1 & Ha1).
  destruct (deliver_keeps_bindings (UserSelects b) s1) as (Hh2 & Ha2).
  fold s1 in Hh1, Ha1. fold s2 in Hh2, Ha2.
  assert (Hp2 : pending s2 = [request_of (S3_Ap st) a; request_of (S3_Ap st) b]).
  { unfold s2. rewrite select_pending. unfold s1 at 1. rewrite select_pending.
    fold s1. rewrite Hh1, Ha1, Hq, Hbound. reflexivity. }
  assert (Hb2 : bound_only_to reqField (handlers s2) = true)
    by (rewrite Hh2, Hh1, Hh; reflexivity).
  set (s3 := deliver (Succeeds 1 for_b) s2).
  change (run_events [Succeeds 1 for_b; Succeeds 0 for_a] s2)
    with (deliver (Succeeds 0 for_a) s3).
  assert (Hk3 : nth_error (pending s2) 1 = Some (request_of (S3_Ap st) b))
    by (rewrite Hp2; reflexivity).
  destruct (deliver_success_page 1 for_b _ s2 Hk3 Hb2) as (A3 & _ & _ & R3 & _).
  fold s3 in A3, R3. rewrite Hp2 in A3. simpl in A3.
  destruct (deliver_keeps_bindings (Succeeds 1 for_b) s2) as (Hh3 & _).
  fold s3 in Hh3.
  assert (Hb3 : bound_only_to reqField (handlers s3) = true) by (rewrite Hh3; exact Hb2).
  assert (Hk4 : nth_error (pending s3) 0 = Some (request_of (S3_Ap st) a))
    by (rewrite A3; reflexivity).
  destruct (deliver_success_page 0 for_a _ s3 Hk4 Hb3) as (A4 & F4 & T4 & R4 & _).
  rewrite A3 in A4. simpl in A4.
  destruct (select_page b s1) as (Hr & _ & _). fold s2 in Hr.
  split; [exact Hp2|]. split; [exact A3|]. split; [exact A4|].
  split; [|split; [rewrite F4|rewrite T4]; reflexivity].
  rewrite R4, R3, Hr. reflexivity.
Qed.

Lemma late_response_overwrites_witness :
  let asked := run_events [UserSelects (Some "4"%string); UserSelects (Some "5"%string)] ready_page in
  let final := run_events [Succeeds 1 none_to_none; Succeeds 0 one_to_two] asked in
  value (field_of final reqField) = Some "5"%string /\
  options (field_of final fromField) = [mk_option "Warehouse A" "7"] /\
  options (field_of final toField) =
    [mk_option "Warehouse B" "2"; mk_option "Warehouse C" "3"].
Proof.
  destruct (late_response_overwrites (Some "4"%string) (Some "5"%string)
              one_to_two none_to_none ready_page eq_refl eq_refl)
    as (_ & _ & _ & Hv & Hf & Ht).
  cbv zeta. split; [exact Hv|split; [exact Hf|exact Ht]].
Defined.

(** X12: the closure variable [site] outlives a run, but no run reads what
    an earlier one left in it: whatever it holds at the start, the callback
    returns, makes the same calls and leaves every field the same. *)
Theorem stale_site_is_never_read (data : response) (st : page) (s : option site_t) :
  fst (sites_callback data (with_site s st)) = Normal tt /\
  (forall f, field_of (exec (sites_callback data) (with_site s st)) f =
             field_of (exec (sites_callback data) st) f) /\
  calls_during (sites_callback data) (with_site s st) =
    calls_during (sites_callback data) st.
Proof.
  rewrite !exec_callback, !calls_during_callback, sites_callback_run.
  repeat split.
  intros f. destruct f.
  - change link_defaultreq with reqField. now rewrite !loaded_req.
  - change inv_recv_from_site_id with fromField. now rewrite !loaded_from.
  - change inv_recv_site_id with toField. now rewrite !loaded_to.
  - now rewrite !loaded_type.
Qed.
